(** * app.py: the dashboard script of the data measurements tool

    A shallow embedding of [src/app.py]: the module-level logging setup,
    [load_or_prepare], [show_column] and [main].

    The script is orchestration code.  Everything it does is a call into a
    collaborator (the operating system, [logging], [streamlit],
    [data_measurements]), so the embedding is a state-and-exception monad
    over a [world] that holds what those calls act on: the directories that
    exist, the Python heap (the dictionaries and statistics objects that the
    script passes around by reference), the module logger, the state of the
    widgets in the browser, the active streamlit container, and the
    chronological trace of the calls made.

    The [@st.cache] decorator of lines 79-84 is a memoiser of the streamlit
    framework wrapped around [load_or_prepare]; it is outside this
    development.  [load_or_prepare] below is the function of lines 85-125,
    that is, what one execution of its body does. *)

From stdpp Require Import gmap strings list fin_maps.

Local Open Scope string_scope.
Local Open Scope Z_scope.
Local Open Scope list_scope.

(** ** Python values and objects *)

(** References into the Python heap. *)
Abbreviation loc := nat.

(** The values that the GUI puts into a dataset-arguments dictionary. *)
Inductive pyvalue :=
| VNone
| VBool (b : bool)
| VInt (n : Z)
| VStr (s : string)
| VStrs (l : list string).

(** The [load_or_prepare_*] methods of [DatasetStatisticsCacheClass] that the
    script calls. *)
Inductive step :=
| Dataset
| Labels
| TextLengths
| Vocab
| GeneralStats
| Embeddings
| NpmiTerms
| Zipf.

Global Instance step_eq_dec : EqDecision step.
Proof. solve_decision. Defined.

(** Modelled from the spec: [DatasetStatisticsCacheClass] is not part of
    [src/]; the spec treats it as an external collaborator with an opaque
    contract.  An instance is represented by what the script gave it: the
    constructor arguments and the history of the [load_or_prepare_*] calls
    made on it, oldest first, each with its [use_cache] flag. *)
Record dstats_obj := DStats {
  cache_dir : string;
  kwargs : gmap string pyvalue;
  prepared : list (step * bool)
}.

(** What lives on the heap. *)
Inductive pyobj :=
| ODict (d : gmap string pyvalue)
| ODStats (o : dstats_obj)
| ONpmi (dstats : loc) (use_cache : bool)
| OInfoDicts.

(** An artifact handed to a widget: an attribute of a heap object
    ([dstats.label_df]) or the terms returned by
    [npmi_stats.get_available_terms]. *)
Inductive artifact :=
| Attr (owner : loc) (name : string)
| AvailableTerms (npmi_stats : loc).

(** ** Logging *)

Inductive level := NOTSET | DEBUG | INFO | WARNING | ERROR | CRITICAL.

Inductive handler_kind :=
| FileHandler (filename : string)
| StreamHandler.

Record handler := Handler {
  h_kind : handler_kind;
  h_level : level;
  h_format : string
}.

Record logger := Logger {
  l_level : level;
  l_propagate : bool;
  l_handlers : list handler
}.

(** ** Streamlit *)

Inductive container :=
| Page
| Column (i : nat).

(** Calls into [st] and [st_utils].  The arguments are those of the source. *)
Inductive ui_call :=
| title (body : string)
| markdown (body : string)
| sidebar_header
| sidebar_checkbox (label : string)
| sidebar_selection (ds_name_to_dict : loc) (column_id : string)
| columns (spec : list Z)
| expander_header (dstats ds_name_to_dict : loc) (column_id : string)
| expander_general_stats (dstats : loc) (top_n : Z) (column_id : string)
| expander_label_distribution (label_df fig_labels : artifact)
    (column_id : string)
| expander_text_lengths
    (tokenized_df fig_tok_length avg_length std_length : artifact)
    (text_field length_field : string) (column_id : string)
| expander_text_duplicates (text_dup_counts_df : artifact) (column_id : string)
| npmi_widget (column_id : string) (available_terms : artifact)
    (npmi_stats : loc) (min_vocab : Z) (use_cache : bool)
| expander_zipf (z zipf_fig : artifact) (column_id : string)
| expander_text_embeddings (text_dset fig_tree node_list embeddings : artifact)
    (text_field : string) (column_id : string).

(** The state of the widgets in the browser when the script runs: the ticked
    checkboxes and, per column id, the dataset arguments selected. *)
Record gui := Gui {
  checked : gset string;
  selected : gmap string (gmap string pyvalue)
}.

(** ** Calls and the world *)

Inductive call :=
| Isdir (path : string) (result : bool)
| Mkdir (path : string)
| PathMkdir (path : string)
| Log (lvl : level) (msg : string)
| Unpack (d : loc)
| NewDStats (r : loc) (dir : string) (kw : gmap string pyvalue)
| Prepare (r : loc) (s : step) (use_cache : bool)
| Stdout (a : artifact)
| NewNpmi (r dstats : loc) (use_cache : bool)
| GetAvailableTerms (npmi_stats : loc) (use_cache : bool)
| GetDatasetInfoDicts (r : loc)
| Ui (active : container) (c : ui_call).

Record world := World {
  dirs : gset string;
  heap : gmap loc pyobj;
  logs : logger;
  browser : gui;
  active : container;
  trace : list call
}.

Definition set_dirs (f : gset string → gset string) (w : world) : world :=
  let 'World d h l b a t := w in World (f d) h l b a t.
Definition set_heap (f : gmap loc pyobj → gmap loc pyobj) (w : world) : world :=
  let 'World d h l b a t := w in World d (f h) l b a t.
Definition set_logs (f : logger → logger) (w : world) : world :=
  let 'World d h l b a t := w in World d h (f l) b a t.
Definition set_active (c : container) (w : world) : world :=
  let 'World d h l b a t := w in World d h l b c t.
Definition record (c : call) (w : world) : world :=
  let 'World d h l b a t := w in World d h l b a (t ++ [c]).

(** ** The monad: state passing with Python exceptions *)

Inductive exn :=
| FileExistsError (path : string)
| TypeError
| AttributeError
| ValueError.

Inductive outcome (A : Type) :=
| Ok (a : A)
| Raise (e : exn).
Arguments Ok {A} a.
Arguments Raise {A} e.

Definition py (A : Type) : Type := world → outcome A * world.

Definition ret {A} (a : A) : py A := λ w, (Ok a, w).

Definition bind {A B} (m : py A) (k : A → py B) : py B := λ w,
  match m w with
  | (Ok a, w') => k a w'
  | (Raise e, w') => (Raise e, w')
  end.

Definition raise {A} (e : exn) : py A := λ w, (Raise e, w).

Notation "'let*' x := m 'in' k" := (bind m (λ x, k))
  (at level 10, x name, m at level 100, k at level 200,
   format "'[v' 'let*'  x  :=  m  'in' '/' k ']'").
Notation "m >> k" := (bind m (λ _, k))
  (at level 100, k at level 200, right associativity,
   format "'[v' m  >> '/' k ']'").

Definition emit (c : call) : py unit := λ w, (Ok tt, record c w).

(** [if cond: body] with no [else]. *)
Definition when (b : bool) (m : py unit) : py unit :=
  if b then m else ret tt.

(** ** The collaborators *)

(** [os.path.isdir] and [os.mkdir] on the set of existing directories.
    [mkdir] raises [FileExistsError] when the directory is there already; the
    other ways a real [mkdir] can fail (a regular file of that name, a
    missing parent, permissions) are not represented. *)
Definition isdir (path : string) : py bool := λ w,
  let b := bool_decide (path ∈ dirs w) in
  (Ok b, record (Isdir path b) w).

Definition mkdir (path : string) : py unit := λ w,
  if bool_decide (path ∈ dirs w)
  then (Raise (FileExistsError path), record (Mkdir path) w)
  else (Ok tt, set_dirs (union {[path]}) (record (Mkdir path) w)).

(** [Path(path).mkdir(exist_ok=True)]. *)
Definition path_mkdir_exist_ok (path : string) : py unit := λ w,
  (Ok tt, set_dirs (union {[path]}) (record (PathMkdir path) w)).

(** [logs.warning(msg)] and [logs.info(msg)]. *)
Definition logs_warning (msg : string) : py unit := emit (Log WARNING msg).
Definition logs_info (msg : string) : py unit := emit (Log INFO msg).

(** Allocation of a new object at an unused reference. *)
Definition alloc (o : pyobj) : py loc := λ w,
  let r := fresh (dom (heap w)) in
  (Ok r, set_heap <[r := o]> w).

(** [**d]: the entries of the dictionary at [d], copied into the keyword
    arguments of a call. *)
Definition unpack (d : loc) : py (gmap string pyvalue) := λ w,
  match heap w !! d with
  | Some (ODict kw) => (Ok kw, record (Unpack d) w)
  | _ => (Raise TypeError, w)
  end.

(** Modelled from the spec: the constructor of the external statistics
    class, which [src/] does not contain; given a cache directory and the
    dataset arguments it yields a new statistics object. *)
Definition DatasetStatisticsCacheClass
    (dir : string) (kw : gmap string pyvalue) : py loc :=
  let* r := alloc (ODStats (DStats dir kw [])) in
  emit (NewDStats r dir kw) >>
  ret r.

(** Modelled from the spec: a [load_or_prepare_*] method of the external
    statistics class, which [src/] does not contain; the call is recorded in
    the trace and in the history of the object it is made on. *)
Definition prepare (s : step) (dstats : loc) (use_cache : bool) : py unit :=
  λ w,
  match heap w !! dstats with
  | Some (ODStats o) =>
      let o' := DStats (cache_dir o) (kwargs o)
                       (prepared o ++ [(s, use_cache)]) in
      (Ok tt,
       set_heap <[dstats := ODStats o']> (record (Prepare dstats s use_cache) w))
  | _ => (Raise AttributeError, w)
  end.

Definition load_or_prepare_dataset := prepare Dataset.
Definition load_or_prepare_labels := prepare Labels.
Definition load_or_prepare_text_lengths := prepare TextLengths.
Definition load_or_prepare_vocab := prepare Vocab.
Definition load_or_prepare_general_stats := prepare GeneralStats.
Definition load_or_prepare_embeddings := prepare Embeddings.
Definition load_or_prepare_npmi_terms := prepare NpmiTerms.
Definition load_or_prepare_zipf := prepare Zipf.

(** Reading the attributes of a statistics object. *)
Definition get_dstats (dstats : loc) : py dstats_obj := λ w,
  match heap w !! dstats with
  | Some (ODStats o) => (Ok o, w)
  | _ => (Raise AttributeError, w)
  end.

(** [print(a)]. *)
Definition print (a : artifact) : py unit := emit (Stdout a).

(** Modelled from the spec: [dataset_statistics.nPMIStatisticsCacheClass] and
    its [get_available_terms], which [src/] does not contain. *)
Definition nPMIStatisticsCacheClass (dstats : loc) (use_cache : bool)
    : py loc :=
  let* r := alloc (ONpmi dstats use_cache) in
  emit (NewNpmi r dstats use_cache) >>
  ret r.

Definition get_available_terms (npmi_stats : loc) (use_cache : bool)
    : py artifact :=
  emit (GetAvailableTerms npmi_stats use_cache) >>
  ret (AvailableTerms npmi_stats).

(** Modelled from the spec: [dataset_utils.get_dataset_info_dicts], which
    [src/] does not contain. *)
Definition get_dataset_info_dicts : py loc :=
  let* r := alloc OInfoDicts in
  emit (GetDatasetInfoDicts r) >>
  ret r.

(** A call into [st] or [st_utils], made inside the active container. *)
Definition ui (c : ui_call) : py unit := λ w,
  (Ok tt, record (Ui (active w) c) w).

(** [st.sidebar.checkbox(label)]. *)
Definition st_sidebar_checkbox (label : string) : py bool := λ w,
  (Ok (bool_decide (label ∈ checked (browser w))),
   record (Ui (active w) (sidebar_checkbox label)) w).

(** Modelled from the spec: [st_utils.sidebar_selection], which [src/] does
    not contain; it returns the dataset arguments chosen for a column as a
    new dictionary. *)
Definition st_utils_sidebar_selection (ds_name_to_dict : loc)
    (column_id : string) : py loc :=
  ui (sidebar_selection ds_name_to_dict column_id) >>
  λ w, alloc (ODict (default ∅ (selected (browser w) !! column_id))) w.

(** [st.columns(spec)]: one container per entry of [spec]. *)
Definition st_columns (spec : list Z) : py (list container) :=
  ui (columns spec) >>
  ret (Column <$> seq 0 (length spec)).

(** [with c: body]: the container is restored when the block is left, also
    by an exception. *)
Definition with_ {A} (c : container) (body : py A) : py A := λ w,
  let saved := active w in
  let (r, w') := body (set_active c w) in
  (r, set_active saved w').

(** ** Names imported from [data_measurements] *)

(** The constants of [dataset_utils] that the script reads; their values are
    not in [src/]. *)
Class dataset_utils := DatasetUtils {
  CACHE_DIR : string;
  OUR_TEXT_FIELD : string;
  LENGTH_FIELD : string
}.

(** What the attributes of a statistics object look like when they are put
    into the column title: [attr_text o a] is [format(o.a)] and
    [attr_items o a] the strings that iterating over [o.a] yields.  The class
    that decides them is not in [src/]. *)
Class dataset_statistics := DatasetStatistics {
  attr_text : dstats_obj → string → string;
  attr_items : dstats_obj → string → list string
}.

(** ** The script *)

Definition _MIN_VOCAB_COUNT : Z := 10.
Definition _SHOW_TOP_N_WORDS : Z := 10.

(** Lines 25-46: the module logger and its handlers. *)
Definition file : handler :=
  Handler (FileHandler "./log_files/app.log") INFO "%(asctime)s:%(message)s".
Definition stream : handler :=
  Handler StreamHandler WARNING "[data_measurements_tool] %(message)s".

Definition setLevel (l : level) : py unit := λ w,
  (Ok tt, set_logs (λ g, Logger l (l_propagate g) (l_handlers g)) w).
Definition set_propagate (b : bool) : py unit := λ w,
  (Ok tt, set_logs (λ g, Logger (l_level g) b (l_handlers g)) w).
Definition addHandler (h : handler) : py unit := λ w,
  (Ok tt, set_logs (λ g, Logger (l_level g) (l_propagate g)
                                (l_handlers g ++ [h])) w).
Definition get_handlers : py (list handler) := λ w,
  (Ok (l_handlers (logs w)), w).

(** The truth value of a list: empty is false. *)
Definition truthy {A} (l : list A) : bool :=
  match l with [] => false | _ => true end.

Definition logging_setup : py unit :=
  setLevel WARNING >>
  set_propagate false >>
  let* handlers := get_handlers in
  when (negb (truthy handlers)) (
    path_mkdir_exist_ok "./log_files" >>
    addHandler file >>
    addHandler stream).

Section app.
Context {utils : dataset_utils} {stats : dataset_statistics}.

(** Lines 85-125.  A keyword argument with a default is an [option]:
    [None] when the caller leaves it out. *)
Definition load_or_prepare (ds_args : loc) (show_embeddings : bool)
    (use_cache : option bool) : py loc :=
  let use_cache := default false use_cache in
  let* is_dir := isdir CACHE_DIR in
  when (negb is_dir) (
    logs_warning "Creating cache" >>
    mkdir CACHE_DIR) >>
  when use_cache (
    logs_warning "Using cache") >>
  let* kw := unpack ds_args in
  let* dstats := DatasetStatisticsCacheClass CACHE_DIR kw in
  logs_warning "Loading Dataset" >>
  load_or_prepare_dataset dstats use_cache >>
  logs_warning "Extracting Labels" >>
  load_or_prepare_labels dstats use_cache >>
  logs_warning "Computing Text Lengths" >>
  load_or_prepare_text_lengths dstats use_cache >>
  logs_warning "Extracting Vocabulary" >>
  load_or_prepare_vocab dstats use_cache >>
  logs_warning "Calculating General Statistics..." >>
  load_or_prepare_general_stats dstats use_cache >>
  logs_warning "Completed Calculation." >>
  logs_warning "Calculating Fine-Grained Statistics..." >>
  when show_embeddings (
    logs_warning "Loading Embeddings" >>
    load_or_prepare_embeddings dstats use_cache >>
    print (Attr dstats "fig_tree")) >>
  logs_warning "Loading Terms for nPMI" >>
  load_or_prepare_npmi_terms dstats use_cache >>
  logs_warning "Loading Zipf" >>
  load_or_prepare_zipf dstats use_cache >>
  ret dstats.

(** Line 141: the f-string of the column title. *)
Definition title_str (o : dstats_obj) (column_id : string) : string :=
  "### Showing" +:+ column_id +:+ ": " +:+ attr_text o "dset_name"
    +:+ " - " +:+ attr_text o "dset_config"
    +:+ " - " +:+ String.concat "-" (attr_items o "text_field").

(** Lines 128-180. *)
Definition show_column (dstats ds_name_to_dict : loc)
    (show_embeddings : bool) (column_id : string)
    (use_cache : option bool) : py unit :=
  let use_cache := default true use_cache in
  let* o := get_dstats dstats in
  ui (markdown (title_str o column_id)) >>
  logs_info "showing header" >>
  ui (expander_header dstats ds_name_to_dict column_id) >>
  logs_info "showing general stats" >>
  ui (expander_general_stats dstats _SHOW_TOP_N_WORDS column_id) >>
  ui (expander_label_distribution
        (Attr dstats "label_df") (Attr dstats "fig_labels") column_id) >>
  ui (expander_text_lengths
        (Attr dstats "tokenized_df") (Attr dstats "fig_tok_length")
        (Attr dstats "avg_length") (Attr dstats "std_length")
        OUR_TEXT_FIELD LENGTH_FIELD column_id) >>
  ui (expander_text_duplicates (Attr dstats "text_dup_counts_df")
        column_id) >>
  logs_info "showing npmi widget" >>
  let* npmi_stats := nPMIStatisticsCacheClass dstats use_cache in
  let* available_terms := get_available_terms npmi_stats use_cache in
  ui (npmi_widget column_id available_terms npmi_stats _MIN_VOCAB_COUNT
        use_cache) >>
  logs_info "showing zipf" >>
  ui (expander_zipf (Attr dstats "z") (Attr dstats "zipf_fig") column_id) >>
  when show_embeddings (
    ui (expander_text_embeddings
          (Attr dstats "text_dset") (Attr dstats "fig_tree")
          (Attr dstats "node_list") (Attr dstats "embeddings")
          OUR_TEXT_FIELD column_id)).

(** Lines 183-217. *)
Definition main : py unit :=
  let* ds_name_to_dict := get_dataset_info_dicts in
  ui (title "Data Measurements Tool") >>
  ui sidebar_header >>
  let* compare_mode := st_sidebar_checkbox "Comparison mode" in
  let use_cache := true in
  let* show_embeddings := st_sidebar_checkbox "Show embeddings" in
  if compare_mode then
    logs_warning "Using Comparison Mode" >>
    let* dataset_args_left :=
      st_utils_sidebar_selection ds_name_to_dict " A" in
    let* dataset_args_right :=
      st_utils_sidebar_selection ds_name_to_dict " B" in
    let* cols := st_columns [10; 1; 10] in
    match cols with
    | [left_col; _; right_col] =>
        let* dstats_left :=
          load_or_prepare dataset_args_left show_embeddings
            (Some use_cache) in
        with_ left_col (
          show_column dstats_left ds_name_to_dict show_embeddings " A"
            None) >>
        let* dstats_right :=
          load_or_prepare dataset_args_right show_embeddings
            (Some use_cache) in
        with_ right_col (
          show_column dstats_right ds_name_to_dict show_embeddings " B"
            None)
    | _ => raise ValueError
    end
  else
    logs_warning "Using Single Dataset Mode" >>
    let* dataset_args := st_utils_sidebar_selection ds_name_to_dict "" in
    let* dstats :=
      load_or_prepare dataset_args show_embeddings (Some use_cache) in
    show_column dstats ds_name_to_dict show_embeddings "" None.

End app.

(** ** Observations on a trace *)

(** The calls made between two worlds of one run. *)
Definition calls_since (w w' : world) : list call :=
  drop (length (trace w)) (trace w').

Definition prepare_of (c : call) : option (loc * step * bool) :=
  match c with Prepare r s u => Some (r, s, u) | _ => None end.
Definition constructed_of (c : call)
    : option (loc * string * gmap string pyvalue) :=
  match c with NewDStats r d kw => Some (r, d, kw) | _ => None end.
Definition mkdir_of (c : call) : option string :=
  match c with Mkdir p => Some p | _ => None end.
Definition unpack_of (c : call) : option loc :=
  match c with Unpack d => Some d | _ => None end.
Definition ui_of (c : call) : option (container * ui_call) :=
  match c with Ui a u => Some (a, u) | _ => None end.
Definition use_cache_of (c : call) : option bool :=
  match c with
  | Prepare _ _ u | NewNpmi _ _ u | GetAvailableTerms _ u
  | Ui _ (npmi_widget _ _ _ _ u) => Some u
  | _ => None
  end.

(** The [load_or_prepare_*] calls of a trace, in order. *)
Definition prepare_calls (t : list call) := omap prepare_of t.
(** The statistics objects constructed, in order. *)
Definition constructed (t : list call) := omap constructed_of t.
Definition mkdir_calls (t : list call) := omap mkdir_of t.
Definition unpacked (t : list call) := omap unpack_of t.
Definition ui_calls (t : list call) := omap ui_of t.
(** Every [use_cache] argument passed to a collaborator, in order. *)
Definition use_cache_flags (t : list call) := omap use_cache_of t.
(** The statistics whose computation a trace triggers. *)
Definition triggered (t : list call) : list step :=
  (λ p, p.1.2) <$> prepare_calls t.

(** The statistics that the purpose statement lists: label distribution,
    text length, vocabulary, nPMI, Zipf fit, embeddings. *)
Definition listed_statistics : list step :=
  [Labels; TextLengths; Vocab; NpmiTerms; Zipf; Embeddings].

(** ** Further observations on a trace *)

Definition stdout_of (c : call) : option artifact :=
  match c with Stdout a => Some a | _ => None end.
Definition log_of (c : call) : option (level * string) :=
  match c with Log l m => Some (l, m) | _ => None end.
Definition isdir_of (c : call) : option (string * bool) :=
  match c with Isdir p b => Some (p, b) | _ => None end.

(** What was printed, what was logged and what [isdir] was asked, in
    order. *)
Definition stdout_calls (t : list call) := omap stdout_of t.
Definition log_calls (t : list call) := omap log_of t.
Definition isdir_calls (t : list call) := omap isdir_of t.

(** ** Which handlers a log record reaches *)

(** The numeric values of the levels of [logging]. *)
Definition level_no (l : level) : Z :=
  match l with
  | NOTSET => 0
  | DEBUG => 10
  | INFO => 20
  | WARNING => 30
  | ERROR => 40
  | CRITICAL => 50
  end.

(** [logs.log(lvl, msg)] on a logger whose own level is set and that does
    not propagate, as lines 26-27 leave it: the record is made only when
    [lvl] is at least the level of the logger, and it is then handed to the
    handlers whose level it reaches. *)
Definition handled_by (g : logger) (lvl : level) : list handler :=
  if bool_decide (level_no (l_level g) ≤ level_no lvl)
  then filter (λ h, level_no (h_level h) ≤ level_no lvl) (l_handlers g)
  else [].

(** The module-level setup run [n] times over, as when the script is
    executed again and again in one process. *)
Definition rerun_setup (n : nat) (w : world) : world :=
  Nat.iter n (λ w', (logging_setup w').2) w.

(** ** The calls and the world that a run is expected to produce

    These lists spell out, call by call, what the functions above do; the
    lemmas of the next part show that the functions produce exactly them. *)

Section expected.
Context {utils : dataset_utils} {stats : dataset_statistics}.

Definition steps (show_embeddings : bool) : list step :=
  [Dataset; Labels; TextLengths; Vocab; GeneralStats]
  ++ (if show_embeddings then [Embeddings] else [])
  ++ [NpmiTerms; Zipf].

Definition statistics_calls (r : loc) (se uc : bool) : list call :=
  [Log WARNING "Loading Dataset"; Prepare r Dataset uc;
   Log WARNING "Extracting Labels"; Prepare r Labels uc;
   Log WARNING "Computing Text Lengths"; Prepare r TextLengths uc;
   Log WARNING "Extracting Vocabulary"; Prepare r Vocab uc;
   Log WARNING "Calculating General Statistics...";
   Prepare r GeneralStats uc;
   Log WARNING "Completed Calculation.";
   Log WARNING "Calculating Fine-Grained Statistics..."]
  ++ (if se then [Log WARNING "Loading Embeddings";
                  Prepare r Embeddings uc;
                  Stdout (Attr r "fig_tree")] else [])
  ++ [Log WARNING "Loading Terms for nPMI"; Prepare r NpmiTerms uc;
      Log WARNING "Loading Zipf"; Prepare r Zipf uc].

Definition bootstrap_calls (existed : bool) : list call :=
  Isdir CACHE_DIR existed
  :: (if existed then []
      else [Log WARNING "Creating cache"; Mkdir CACHE_DIR]).

Definition using_cache_calls (uc : bool) : list call :=
  if uc then [Log WARNING "Using cache"] else [].

Definition load_calls (existed : bool) (ds_args r : loc)
    (kw : gmap string pyvalue) (se uc : bool) : list call :=
  bootstrap_calls existed ++ using_cache_calls uc
  ++ Unpack ds_args :: NewDStats r CACHE_DIR kw :: statistics_calls r se uc.

(** The statistics object that [load_or_prepare] returns. *)
Definition prepared_dstats (kw : gmap string pyvalue) (se uc : bool)
    : dstats_obj :=
  DStats CACHE_DIR kw ((λ s, (s, uc)) <$> steps se).

(** The world after [load_or_prepare] on a dictionary [kw]. *)
Definition loaded (w : world) (ds_args : loc) (kw : gmap string pyvalue)
    (se uc : bool) : world :=
  let r := fresh (dom (heap w)) in
  World ({[CACHE_DIR]} ∪ dirs w)
        (<[r := ODStats (prepared_dstats kw se uc)]> (heap w))
        (logs w) (browser w) (active w)
        (trace w
         ++ load_calls (bool_decide (CACHE_DIR ∈ dirs w)) ds_args r kw
              se uc).

(** The widgets of one column, in the order [show_column] renders them. *)
Definition column_widgets (o : dstats_obj) (dstats info npmi_stats : loc)
    (se : bool) (column_id : string) (uc : bool) : list ui_call :=
  [markdown (title_str o column_id);
   expander_header dstats info column_id;
   expander_general_stats dstats 10 column_id;
   expander_label_distribution
     (Attr dstats "label_df") (Attr dstats "fig_labels") column_id;
   expander_text_lengths
     (Attr dstats "tokenized_df") (Attr dstats "fig_tok_length")
     (Attr dstats "avg_length") (Attr dstats "std_length")
     OUR_TEXT_FIELD LENGTH_FIELD column_id;
   expander_text_duplicates (Attr dstats "text_dup_counts_df") column_id;
   npmi_widget column_id (AvailableTerms npmi_stats) npmi_stats 10 uc;
   expander_zipf (Attr dstats "z") (Attr dstats "zipf_fig") column_id]
  ++ (if se
      then [expander_text_embeddings
              (Attr dstats "text_dset") (Attr dstats "fig_tree")
              (Attr dstats "node_list") (Attr dstats "embeddings")
              OUR_TEXT_FIELD column_id]
      else []).

Definition show_calls (a : container) (o : dstats_obj)
    (dstats info npmi_stats : loc) (se : bool) (column_id : string)
    (uc : bool) : list call :=
  [Ui a (markdown (title_str o column_id));
   Log INFO "showing header";
   Ui a (expander_header dstats info column_id);
   Log INFO "showing general stats";
   Ui a (expander_general_stats dstats 10 column_id);
   Ui a (expander_label_distribution
           (Attr dstats "label_df") (Attr dstats "fig_labels") column_id);
   Ui a (expander_text_lengths
           (Attr dstats "tokenized_df") (Attr dstats "fig_tok_length")
           (Attr dstats "avg_length") (Attr dstats "std_length")
           OUR_TEXT_FIELD LENGTH_FIELD column_id);
   Ui a (expander_text_duplicates (Attr dstats "text_dup_counts_df")
           column_id);
   Log INFO "showing npmi widget";
   NewNpmi npmi_stats dstats uc;
   GetAvailableTerms npmi_stats uc;
   Ui a (npmi_widget column_id (AvailableTerms npmi_stats) npmi_stats 10
           uc);
   Log INFO "showing zipf";
   Ui a (expander_zipf (Attr dstats "z") (Attr dstats "zipf_fig")
           column_id)]
  ++ (if se
      then [Ui a (expander_text_embeddings
                    (Attr dstats "text_dset") (Attr dstats "fig_tree")
                    (Attr dstats "node_list") (Attr dstats "embeddings")
                    OUR_TEXT_FIELD column_id)]
      else []).

(** The world after [show_column] on the statistics object [o]. *)
Definition shown (w : world) (o : dstats_obj) (dstats info : loc)
    (se : bool) (column_id : string) (uc : bool) : world :=
  let npmi_stats := fresh (dom (heap w)) in
  World (dirs w) (<[npmi_stats := ONpmi dstats uc]> (heap w))
        (logs w) (browser w) (active w)
        (trace w
         ++ show_calls (active w) o dstats info npmi_stats se column_id uc).

(** What the browser holds when the script starts. *)
Definition compare_mode (w : world) : bool :=
  bool_decide ("Comparison mode" ∈ checked (browser w)).
Definition show_embeddings (w : world) : bool :=
  bool_decide ("Show embeddings" ∈ checked (browser w)).
Definition selection (w : world) (column_id : string)
    : gmap string pyvalue :=
  default ∅ (selected (browser w) !! column_id).

Definition header_calls (a : container) (info : loc) : list call :=
  [GetDatasetInfoDicts info;
   Ui a (title "Data Measurements Tool");
   Ui a sidebar_header;
   Ui a (sidebar_checkbox "Comparison mode");
   Ui a (sidebar_checkbox "Show embeddings")].

(** Comparison mode: the world when both selections are made and the
    columns exist, just before the first [load_or_prepare]. *)
Definition compare_selected (w : world) : world :=
  let info := fresh (dom (heap w)) in
  let h1 := <[info := OInfoDicts]> (heap w) in
  let a := fresh (dom h1) in
  let h2 := <[a := ODict (selection w " A")]> h1 in
  let b := fresh (dom h2) in
  World (dirs w) (<[b := ODict (selection w " B")]> h2)
        (logs w) (browser w) (active w)
        (trace w ++ header_calls (active w) info
         ++ [Log WARNING "Using Comparison Mode";
             Ui (active w) (sidebar_selection info " A");
             Ui (active w) (sidebar_selection info " B");
             Ui (active w) (columns [10; 1; 10])]).

Definition info_loc (w : world) : loc := fresh (dom (heap w)).
Definition first_args (w : world) : loc :=
  fresh (dom (<[info_loc w := OInfoDicts]> (heap w))).

Definition left_dstats (w : world) : loc :=
  fresh (dom (heap (compare_selected w))).
Definition second_args (w : world) : loc :=
  fresh (dom (<[first_args w := ODict (selection w " A")]>
                (<[info_loc w := OInfoDicts]> (heap w)))).
Definition left_loaded (w : world) : world :=
  loaded (compare_selected w) (first_args w) (selection w " A")
    (show_embeddings w) true.
(** [with c: show_column(...)] from [w']: the column is shown inside [c]
    and the container of [w] is active again afterwards. *)
Definition shown_in (c : container) (w w' : world) (kw : gmap string pyvalue)
    (dstats : loc) (column_id : string) : world :=
  set_active (active w)
    (shown (set_active c w')
       (prepared_dstats kw (show_embeddings w) true) dstats (info_loc w)
       (show_embeddings w) column_id true).
Definition left_shown (w : world) : world :=
  shown_in (Column 0) w (left_loaded w) (selection w " A") (left_dstats w)
    " A".
Definition right_dstats (w : world) : loc :=
  fresh (dom (heap (left_shown w))).
Definition right_loaded (w : world) : world :=
  loaded (left_shown w) (second_args w) (selection w " B")
    (show_embeddings w) true.
Definition right_shown (w : world) : world :=
  shown_in (Column 2) w (right_loaded w) (selection w " B")
    (right_dstats w) " B".

(** Single-dataset mode: the world just before [load_or_prepare], and
    after it and after [show_column]. *)
Definition single_selected (w : world) : world :=
  World (dirs w)
        (<[first_args w := ODict (selection w "")]>
           (<[info_loc w := OInfoDicts]> (heap w)))
        (logs w) (browser w) (active w)
        (trace w ++ header_calls (active w) (info_loc w)
         ++ [Log WARNING "Using Single Dataset Mode";
             Ui (active w) (sidebar_selection (info_loc w) "")]).
Definition single_dstats (w : world) : loc :=
  fresh (dom (heap (single_selected w))).
Definition single_loaded (w : world) : world :=
  loaded (single_selected w) (first_args w) (selection w "")
    (show_embeddings w) true.
Definition single_shown (w : world) : world :=
  shown (single_loaded w)
    (prepared_dstats (selection w "") (show_embeddings w) true)
    (single_dstats w) (info_loc w) (show_embeddings w) "" true.

End expected.

(** ** The purpose statement read literally *)

Section literal.
Context {utils : dataset_utils}.

(** Every call triggers every listed statistic. *)
Definition triggers_all_listed (ds_args : loc) (se : bool)
    (uc : option bool) (w : world) : Prop :=
  ∀ s, s ∈ listed_statistics →
       s ∈ triggered (calls_since w (load_or_prepare ds_args se uc w).2).

End literal.

(** ** A concrete run *)

Definition demo_utils : dataset_utils :=
  DatasetUtils "cache_dir" "text" "length".

Definition demo_stats : dataset_statistics :=
  DatasetStatistics
    (λ o a, match kwargs o !! a with Some (VStr s) => s | _ => "None" end)
    (λ o a, match kwargs o !! a with Some (VStrs l) => l | _ => [] end).

Definition imdb : gmap string pyvalue :=
  {[ "dset_name" := VStr "imdb";
     "dset_config" := VStr "plain_text";
     "text_field" := VStrs ["text"] ]}.

Definition glue : gmap string pyvalue :=
  {[ "dset_name" := VStr "glue";
     "dset_config" := VStr "sst2";
     "text_field" := VStrs ["sentence"] ]}.

(** A first run in comparison mode: no cache directory yet, one dictionary
    on the heap, a logger that was never configured. *)
Definition demo_world : world :=
  World ∅ {[ 0%nat := ODict imdb ]} (Logger NOTSET true [])
        (Gui {[ "Comparison mode" ]} {[ " A" := imdb; " B" := glue ]})
        Page [].

(** The same with a statistics object already on the heap. *)
Definition demo_loaded : world :=
  World {[ "cache_dir" ]}
        {[ 0%nat := ODict imdb;
           1%nat := ODStats (DStats "cache_dir" imdb []) ]}
        (Logger WARNING false [file; stream])
        (Gui ∅ ∅) (Column 0) [].

(** ** What one run of each function does *)

Lemma bind_run {A B} (m : py A) (k : A → py B) w a w' :
  m w = (Ok a, w') → bind m k w = k a w'.
Proof. unfold bind. by intros ->. Qed.

Lemma bind_raise {A B} (m : py A) (k : A → py B) w e w' :
  m w = (Raise e, w') → bind m k w = (Raise e, w').
Proof. unfold bind. by intros ->. Qed.

Lemma calls_since_app w w' t :
  trace w' = trace w ++ t → calls_since w w' = t.
Proof. unfold calls_since. intros ->. by rewrite drop_app_length. Qed.

Lemma prepare_run s r uc d h l b a t o :
  h !! r = Some (ODStats o) →
  prepare s r uc (World d h l b a t)
  = (Ok tt, World d (<[r := ODStats (DStats (cache_dir o) (kwargs o)
                                        (prepared o ++ [(s, uc)]))]> h)
                  l b a (t ++ [Prepare r s uc])).
Proof. intros Hr. unfold prepare. cbn. by rewrite Hr. Qed.

Ltac unfold_methods :=
  unfold load_or_prepare_dataset, load_or_prepare_labels,
    load_or_prepare_text_lengths, load_or_prepare_vocab,
    load_or_prepare_general_stats, load_or_prepare_embeddings,
    load_or_prepare_npmi_terms, load_or_prepare_zipf.

Ltac world_cbn :=
  cbn [dirs heap logs browser active trace cache_dir kwargs prepared
       record set_heap set_dirs set_active set_logs].

Lemma fresh_ne (h : gmap loc pyobj) (l : loc) :
  is_Some (h !! l) → fresh (dom h) ≠ l.
Proof.
  intros Hl <-. apply elem_of_dom in Hl. by apply is_fresh in Hl.
Qed.

Ltac solve_lookup :=
  first [ apply lookup_insert_eq
        | rewrite lookup_insert_ne;
          [ solve_lookup | apply fresh_ne; eexists; solve_lookup ] ].

Ltac unfold_worlds :=
  unfold right_shown, right_loaded, right_dstats, left_shown, shown_in,
    left_loaded, left_dstats, single_shown, single_loaded, single_dstats,
    single_selected, second_args, first_args, compare_selected,
    info_loc, selection, show_embeddings, compare_mode, header_calls,
    shown, loaded;
  world_cbn.

Section runs.
Context {utils : dataset_utils} {stats : dataset_statistics}.

Lemma load_or_prepare_run w ds_args kw se uc :
  heap w !! ds_args = Some (ODict kw) →
  load_or_prepare ds_args se uc w
  = (Ok (fresh (dom (heap w))), loaded w ds_args kw se (default false uc)).
Proof.
  intros Hd. destruct w as [ds h lg br ac tr]. cbn in Hd.
  unfold load_or_prepare, loaded. unfold_methods. world_cbn.
  set (r := fresh (dom h)).
  destruct (default false uc), se;
    unfold bind at 1, isdir; cbn; case_bool_decide; cbn.
  all: unfold bind, when, logs_warning, print, emit, unpack,
         DatasetStatisticsCacheClass, alloc, ret, mkdir; cbn.
  all: try (rewrite bool_decide_false by done); cbn; rewrite Hd; cbn.
  all: fold r.
  all: repeat (erewrite prepare_run by (apply lookup_insert_eq);
               world_cbn; rewrite insert_insert_eq).
  all: rewrite <- ?app_assoc; cbn [app].
  all: do 2 f_equal; try done.
  all: symmetry; apply subseteq_union_1_L; by apply singleton_subseteq_l.
Qed.

(** A run on something that is not a dictionary stops at the unpacking,
    after the cache directory was seen to. *)
Lemma load_or_prepare_no_dict w ds_args se uc :
  (∀ kw, heap w !! ds_args ≠ Some (ODict kw)) →
  load_or_prepare ds_args se uc w
  = (Raise TypeError,
     World ({[CACHE_DIR]} ∪ dirs w) (heap w) (logs w) (browser w)
           (active w)
           (trace w ++ bootstrap_calls (bool_decide (CACHE_DIR ∈ dirs w))
                    ++ using_cache_calls (default false uc))).
Proof.
  intros Hd. destruct w as [ds h lg br ac tr]. cbn in Hd.
  unfold load_or_prepare. world_cbn.
  destruct (default false uc);
    unfold bind at 1, isdir; cbn; case_bool_decide; cbn.
  all: unfold bind, when, logs_warning, emit, unpack, ret, mkdir; cbn.
  all: try (rewrite bool_decide_false by done); cbn.
  all: destruct (h !! ds_args) as [[]|] eqn:E; try (by edestruct Hd).
  all: rewrite <- ?app_assoc; cbn [app].
  all: do 2 f_equal; try done.
  all: symmetry; apply subseteq_union_1_L; by apply singleton_subseteq_l.
Qed.

Lemma show_column_run w dstats o info se column_id uc :
  heap w !! dstats = Some (ODStats o) →
  show_column dstats info se column_id uc w
  = (Ok tt, shown w o dstats info se column_id (default true uc)).
Proof.
  intros Hd. destruct w as [ds h lg br ac tr]. cbn in Hd.
  unfold show_column, shown. world_cbn.
  unfold bind at 1, get_dstats. world_cbn. rewrite Hd.
  destruct se;
    unfold nPMIStatisticsCacheClass, get_available_terms, bind, when, ui,
      logs_info, emit, alloc, ret; world_cbn.
  all: rewrite <- ?app_assoc; cbn [app]; done.
Qed.

Lemma ui_calls_show a o dstats info npmi_stats se column_id uc :
  ui_calls (show_calls a o dstats info npmi_stats se column_id uc)
  = (λ u, (a, u))
      <$> column_widgets o dstats info npmi_stats se column_id uc.
Proof. by destruct se. Qed.

Lemma ui_calls_load existed ds_args r kw se uc :
  ui_calls (load_calls existed ds_args r kw se uc) = [].
Proof. by destruct existed, se, uc. Qed.

Lemma constructed_load existed ds_args r kw se uc :
  constructed (load_calls existed ds_args r kw se uc)
  = [(r, CACHE_DIR, kw)].
Proof. by destruct existed, se, uc. Qed.

Lemma constructed_show a o dstats info npmi_stats se column_id uc :
  constructed (show_calls a o dstats info npmi_stats se column_id uc) = [].
Proof. by destruct se. Qed.

Lemma prepare_calls_load existed ds_args r kw se uc :
  prepare_calls (load_calls existed ds_args r kw se uc)
  = (λ s, (r, s, uc)) <$> steps se.
Proof. by destruct existed, se, uc. Qed.

Lemma use_cache_flags_load existed ds_args r kw se uc :
  use_cache_flags (load_calls existed ds_args r kw se uc)
  = (λ _, uc) <$> steps se.
Proof. by destruct existed, se, uc. Qed.

Lemma use_cache_flags_show a o dstats info npmi_stats se column_id uc :
  use_cache_flags (show_calls a o dstats info npmi_stats se column_id uc)
  = [uc; uc; uc].
Proof. by destruct se. Qed.

Lemma mkdir_calls_load existed ds_args r kw se uc :
  mkdir_calls (load_calls existed ds_args r kw se uc)
  = if existed then [] else [CACHE_DIR].
Proof. by destruct existed, se, uc. Qed.

Lemma unpacked_load existed ds_args r kw se uc :
  unpacked (load_calls existed ds_args r kw se uc) = [ds_args].
Proof. by destruct existed, se, uc. Qed.

Lemma left_load_run w :
  load_or_prepare (first_args w) (show_embeddings w) (Some true)
    (compare_selected w) = (Ok (left_dstats w), left_loaded w).
Proof.
  apply load_or_prepare_run. destruct w. unfold_worlds. solve_lookup.
Qed.

Lemma with_show_column_run c w dstats o info se column_id :
  heap w !! dstats = Some (ODStats o) →
  with_ c (show_column dstats info se column_id None) w
  = (Ok tt,
     set_active (active w)
       (shown (set_active c w) o dstats info se column_id true)).
Proof.
  intros Hd. unfold with_. erewrite show_column_run; [done|].
  by destruct w.
Qed.

Lemma left_show_run w :
  with_ (Column 0)
    (show_column (left_dstats w) (info_loc w) (show_embeddings w) " A"
       None) (left_loaded w) = (Ok tt, left_shown w).
Proof.
  unfold left_shown, shown_in.
  erewrite with_show_column_run.
  - by destruct w.
  - destruct w. unfold_worlds. solve_lookup.
Qed.

Lemma right_load_run w :
  load_or_prepare (second_args w) (show_embeddings w) (Some true)
    (left_shown w) = (Ok (right_dstats w), right_loaded w).
Proof.
  apply load_or_prepare_run. destruct w. unfold_worlds. solve_lookup.
Qed.

Lemma right_show_run w :
  with_ (Column 2)
    (show_column (right_dstats w) (info_loc w) (show_embeddings w) " B"
       None) (right_loaded w) = (Ok tt, right_shown w).
Proof.
  unfold right_shown, shown_in.
  erewrite with_show_column_run.
  - by destruct w.
  - destruct w. unfold_worlds. solve_lookup.
Qed.

Lemma main_compare_run w :
  compare_mode w = true → main w = (Ok tt, right_shown w).
Proof.
  intros Hc.
  pose proof (left_load_run w) as H1. pose proof (left_show_run w) as H2.
  pose proof (right_load_run w) as H3. pose proof (right_show_run w) as H4.
  destruct w as [ds h lg br ac tr]. unfold compare_mode in Hc. cbn in Hc.
  unfold main.
  unfold get_dataset_info_dicts, st_sidebar_checkbox,
    st_utils_sidebar_selection, st_columns, ui, logs_warning, emit, alloc,
    ret.
  unfold bind. world_cbn. rewrite Hc.
  world_cbn. cbn [length seq fmap list_fmap].
  rewrite <- ?app_assoc. cbn [app].
  set (w := World ds h lg br ac tr) in *.
  change (load_or_prepare _ _ _ _)
    with (load_or_prepare (first_args w) (show_embeddings w) (Some true)
            (compare_selected w)) at 1.
  rewrite H1.
  change (with_ _ _ _)
    with (with_ (Column 0)
            (show_column (left_dstats w) (info_loc w) (show_embeddings w)
               " A" None) (left_loaded w)) at 1.
  rewrite H2.
  change (load_or_prepare _ _ _ _)
    with (load_or_prepare (second_args w) (show_embeddings w) (Some true)
            (left_shown w)).
  rewrite H3.
  change (with_ _ _ _)
    with (with_ (Column 2)
            (show_column (right_dstats w) (info_loc w) (show_embeddings w)
               " B" None) (right_loaded w)).
  by rewrite H4.
Qed.

Lemma single_load_run w :
  load_or_prepare (first_args w) (show_embeddings w) (Some true)
    (single_selected w) = (Ok (single_dstats w), single_loaded w).
Proof.
  apply load_or_prepare_run. destruct w. unfold_worlds. solve_lookup.
Qed.

Lemma single_show_run w :
  show_column (single_dstats w) (info_loc w) (show_embeddings w) "" None
    (single_loaded w) = (Ok tt, single_shown w).
Proof.
  unfold single_shown. erewrite show_column_run; [done|].
  destruct w. unfold_worlds. solve_lookup.
Qed.

Lemma main_single_run w :
  compare_mode w = false → main w = (Ok tt, single_shown w).
Proof.
  intros Hc.
  pose proof (single_load_run w) as H1.
  pose proof (single_show_run w) as H2.
  destruct w as [ds h lg br ac tr]. unfold compare_mode in Hc. cbn in Hc.
  unfold main.
  unfold get_dataset_info_dicts, st_sidebar_checkbox,
    st_utils_sidebar_selection, ui, logs_warning, emit, alloc, ret.
  unfold bind. world_cbn. rewrite Hc.
  world_cbn. rewrite <- ?app_assoc. cbn [app].
  set (w := World ds h lg br ac tr) in *.
  change (load_or_prepare _ _ _ _)
    with (load_or_prepare (first_args w) (show_embeddings w) (Some true)
            (single_selected w)).
  rewrite H1.
  change (show_column _ _ _ _ _ _)
    with (show_column (single_dstats w) (info_loc w) (show_embeddings w)
            "" None (single_loaded w)).
  by rewrite H2.
Qed.

(** The calls of a whole run of [main], in either mode. *)
Lemma compare_trace w :
  trace (right_shown w)
  = trace w ++ header_calls (active w) (info_loc w)
    ++ [Log WARNING "Using Comparison Mode";
        Ui (active w) (sidebar_selection (info_loc w) " A");
        Ui (active w) (sidebar_selection (info_loc w) " B");
        Ui (active w) (columns [10; 1; 10])]
    ++ load_calls (bool_decide (CACHE_DIR ∈ dirs w)) (first_args w)
         (left_dstats w) (selection w " A") (show_embeddings w) true
    ++ show_calls (Column 0)
         (prepared_dstats (selection w " A") (show_embeddings w) true)
         (left_dstats w) (info_loc w)
         (fresh (dom (heap (left_loaded w)))) (show_embeddings w) " A" true
    ++ load_calls (bool_decide (CACHE_DIR ∈ dirs (left_shown w)))
         (second_args w) (right_dstats w) (selection w " B")
         (show_embeddings w) true
    ++ show_calls (Column 2)
         (prepared_dstats (selection w " B") (show_embeddings w) true)
         (right_dstats w) (info_loc w)
         (fresh (dom (heap (right_loaded w)))) (show_embeddings w) " B"
         true.
Proof.
  destruct w. unfold_worlds. by rewrite <- !app_assoc.
Qed.

Lemma single_trace w :
  trace (single_shown w)
  = trace w ++ header_calls (active w) (info_loc w)
    ++ [Log WARNING "Using Single Dataset Mode";
        Ui (active w) (sidebar_selection (info_loc w) "")]
    ++ load_calls (bool_decide (CACHE_DIR ∈ dirs w)) (first_args w)
         (single_dstats w) (selection w "") (show_embeddings w) true
    ++ show_calls (active w)
         (prepared_dstats (selection w "") (show_embeddings w) true)
         (single_dstats w) (info_loc w)
         (fresh (dom (heap (single_loaded w)))) (show_embeddings w) "" true.
Proof.
  destruct w. unfold_worlds. by rewrite <- !app_assoc.
Qed.

End runs.

(** ** The claims about [load_or_prepare] *)

Ltac elem :=
  repeat first [ apply list_elem_of_here | apply list_elem_of_further ].

Section load_or_prepare_claims.
Context {utils : dataset_utils} {stats : dataset_statistics}.

Lemma calls_since_loaded w ds_args kw se uc :
  calls_since w (loaded w ds_args kw se uc)
  = load_calls (bool_decide (CACHE_DIR ∈ dirs w)) ds_args
      (fresh (dom (heap w))) kw se uc.
Proof. by apply calls_since_app. Qed.

Lemma cache_dir_created (d : gset string) : CACHE_DIR ∈ {[CACHE_DIR]} ∪ d.
Proof. apply elem_of_union. left. by apply elem_of_singleton. Qed.

Lemma lookup_fresh (h : gmap loc pyobj) : h !! fresh (dom h) = None.
Proof. apply not_elem_of_dom, is_fresh. Qed.

Lemma triggered_load existed ds_args r kw se uc :
  triggered (load_calls existed ds_args r kw se uc) = steps se.
Proof. by destruct existed, se, uc. Qed.





(** C9.  [load_or_prepare] leaves the dictionary it is given as it was:
    after the call the same entries are at the same reference, every
    object other than the new statistics object is unchanged, and the only
    access to the dictionary is the one unpacking for the constructor. *)
Theorem load_or_prepare_preserves_ds_args w ds_args kw se uc :
  heap w !! ds_args = Some (ODict kw) →
  ∃ dstats w',
    load_or_prepare ds_args se uc w = (Ok dstats, w')
    ∧ heap w' !! ds_args = Some (ODict kw)
    ∧ heap w !! dstats = None
    ∧ (∀ l, l ≠ dstats → heap w' !! l = heap w !! l)
    ∧ unpacked (calls_since w w') = [ds_args].
Proof.
  intros Hd. eexists _, _. split; [by apply load_or_prepare_run|].
  rewrite calls_since_loaded, unpacked_load.
  unfold loaded. cbn [heap].
  split_and!; try done.
  - rewrite lookup_insert_ne; [done|].
    apply fresh_ne. by eexists.
  - apply lookup_fresh.
  - intros l Hl. by rewrite lookup_insert_ne.
Qed.

End load_or_prepare_claims.

(** ** The claims about the logging setup, [show_column] and [main] *)

Lemma constructed_app t1 t2 :
  constructed (t1 ++ t2) = constructed t1 ++ constructed t2.
Proof. apply omap_app. Qed.

Lemma ui_calls_app t1 t2 : ui_calls (t1 ++ t2) = ui_calls t1 ++ ui_calls t2.
Proof. apply omap_app. Qed.

Lemma use_cache_flags_app t1 t2 :
  use_cache_flags (t1 ++ t2) = use_cache_flags t1 ++ use_cache_flags t2.
Proof. apply omap_app. Qed.

(** C6.  The module-level setup always leaves the logger at level WARNING
    with propagation off.  It adds the file handler (level INFO, writing to
    ./log_files/app.log) and the stream handler (level WARNING), in this
    order, exactly when the logger has no handler, and otherwise leaves the
    handlers as they are; so running it a second time changes nothing of the
    logger. *)
Theorem logging_setup_idempotent w :
  let w1 := (logging_setup w).2 in
  let w2 := (logging_setup w1).2 in
  (logging_setup w).1 = Ok tt
  ∧ l_handlers (logs w1)
    = (if truthy (l_handlers (logs w)) then l_handlers (logs w)
       else [file; stream])
  ∧ logs w2 = logs w1
  ∧ l_level (logs w1) = WARNING
  ∧ l_propagate (logs w1) = false
  ∧ file = Handler (FileHandler "./log_files/app.log") INFO
             "%(asctime)s:%(message)s"
  ∧ stream = Handler StreamHandler WARNING
               "[data_measurements_tool] %(message)s".
Proof.
  destruct w as [d h [lv pr hs] b a t].
  destruct hs as [|h1 hs];
    unfold logging_setup, bind, when, setLevel, set_propagate, get_handlers,
      addHandler, path_mkdir_exist_ok, ret;
    cbn [fst snd logs set_logs record set_dirs l_handlers l_level l_propagate
         truthy negb app];
    done.
Qed.

Section ui_claims.
Context {utils : dataset_utils} {stats : dataset_statistics}.

Lemma calls_since_shown w o dstats info se column_id uc :
  calls_since w (shown w o dstats info se column_id uc)
  = show_calls (active w) o dstats info (fresh (dom (heap w))) se
      column_id uc.
Proof. by apply calls_since_app. Qed.

(** C10.  [show_column] makes its streamlit calls in this order, all in
    the container that is active: the title markdown, the header expander,
    the general statistics (top 10 words), the label distribution, the text
    lengths, the text duplicates, the nPMI widget (minimum vocabulary
    count 10), the Zipf expander, and then the text embeddings exactly when
    [show_embeddings] is true. *)
Theorem show_column_widget_order w dstats o info se column_id uc :
  heap w !! dstats = Some (ODStats o) →
  ∃ npmi_stats w',
    show_column dstats info se column_id uc w = (Ok tt, w')
    ∧ ui_calls (calls_since w w')
      = (λ u, (active w, u)) <$>
          ([markdown (title_str o column_id);
           expander_header dstats info column_id;
           expander_general_stats dstats 10 column_id;
           expander_label_distribution
             (Attr dstats "label_df") (Attr dstats "fig_labels") column_id;
           expander_text_lengths
             (Attr dstats "tokenized_df") (Attr dstats "fig_tok_length")
             (Attr dstats "avg_length") (Attr dstats "std_length")
             OUR_TEXT_FIELD LENGTH_FIELD column_id;
           expander_text_duplicates (Attr dstats "text_dup_counts_df")
             column_id;
           npmi_widget column_id (AvailableTerms npmi_stats) npmi_stats 10
             (default true uc);
           expander_zipf (Attr dstats "z") (Attr dstats "zipf_fig")
             column_id]
          ++ (if se
              then [expander_text_embeddings
                      (Attr dstats "text_dset") (Attr dstats "fig_tree")
                      (Attr dstats "node_list") (Attr dstats "embeddings")
                      OUR_TEXT_FIELD column_id]
              else [])).
Proof.
  intros Hd. eexists _, _. split; [by apply show_column_run|].
  rewrite calls_since_shown, ui_calls_show. by destruct se.
Qed.


End ui_claims.

Section main_claims.
Context {utils : dataset_utils} {stats : dataset_statistics}.

Lemma calls_since_shown_in c w w' kw dstats column_id :
  calls_since w' (shown_in c w w' kw dstats column_id)
  = show_calls c (prepared_dstats kw (show_embeddings w) true) dstats
      (info_loc w) (fresh (dom (heap w'))) (show_embeddings w) column_id
      true.
Proof. apply calls_since_app. by destruct w, w'. Qed.

Lemma trace_shown_in c w w' kw dstats column_id :
  trace (shown_in c w w' kw dstats column_id)
  = trace w'
    ++ show_calls c (prepared_dstats kw (show_embeddings w) true) dstats
         (info_loc w) (fresh (dom (heap w'))) (show_embeddings w) column_id
         true.
Proof. by destruct w, w'. Qed.


(** C8.  The [use_cache] parameter of [load_or_prepare] is false when
    left out, and that of [show_column] is true when left out.  Whatever
    the browser holds, every [use_cache] argument that reaches a
    collaborator during a run of [main] is true: those of the preparation
    steps of each [load_or_prepare] and the three of each [show_column]. *)
Theorem main_always_uses_cache w :
  (∀ ds_args se,
      load_or_prepare ds_args se None
      = load_or_prepare ds_args se (Some false))
  ∧ (∀ dstats info se column_id,
        show_column dstats info se column_id None
        = show_column dstats info se column_id (Some true))
  ∧ ∃ w',
      main w = (Ok tt, w')
      ∧ Forall (λ u, u = true) (use_cache_flags (calls_since w w'))
      ∧ length (use_cache_flags (calls_since w w'))
        = ((if compare_mode w then 2 else 1)
           * (length (steps (show_embeddings w)) + 3))%nat.
Proof.
  split; [done|]. split; [done|].
  destruct (compare_mode w) eqn:Hc.
  - exists (right_shown w). split; [by apply main_compare_run|].
    rewrite (calls_since_app _ _ _ (compare_trace w)).
    rewrite !use_cache_flags_app, !use_cache_flags_load,
      !use_cache_flags_show.
    destruct (show_embeddings w); cbn; (split; [|done]).
    all: repeat constructor.
  - exists (single_shown w). split; [by apply main_single_run|].
    rewrite (calls_since_app _ _ _ (single_trace w)).
    rewrite !use_cache_flags_app, !use_cache_flags_load,
      !use_cache_flags_show.
    destruct (show_embeddings w); cbn; (split; [|done]).
    all: repeat constructor.
Qed.

End main_claims.

(** ** Further properties of the script *)

Lemma mkdir_calls_app t1 t2 :
  mkdir_calls (t1 ++ t2) = mkdir_calls t1 ++ mkdir_calls t2.
Proof. apply omap_app. Qed.

Lemma isdir_calls_app t1 t2 :
  isdir_calls (t1 ++ t2) = isdir_calls t1 ++ isdir_calls t2.
Proof. apply omap_app. Qed.

Lemma logging_setup_run w :
  logging_setup w
  = (Ok tt,
     if truthy (l_handlers (logs w))
     then set_logs (λ g, Logger WARNING false (l_handlers g)) w
     else World ({["./log_files"]} ∪ dirs w) (heap w)
            (Logger WARNING false [file; stream]) (browser w) (active w)
            (trace w ++ [PathMkdir "./log_files"])).
Proof.
  destruct w as [d h [lv pr hs] b a t].
  by destruct hs as [|h1 hs].
Qed.


Lemma rerun_setup_S n w :
  rerun_setup (S n) w = (logging_setup (rerun_setup n w)).2.
Proof. done. Qed.

Lemma logging_setup_again w :
  (logging_setup (logging_setup w).2).2 = (logging_setup w).2.
Proof.
  rewrite !logging_setup_run. cbn [snd].
  destruct w as [d h [lv pr hs] b a t].
  by destruct hs as [|h1 hs].
Qed.

(** X9.  However often the module-level setup is run again, the world is
    the one that the first run left: the logger keeps the handlers it had
    after the first run, and no later run makes a call or creates a
    directory. *)
Theorem logging_setup_rerun n w :
  rerun_setup (S n) w = rerun_setup 1 w.
Proof.
  induction n as [|n IH]; [done|].
  rewrite rerun_setup_S, IH. apply logging_setup_again.
Qed.

Section further.
Context {utils : dataset_utils} {stats : dataset_statistics}.

Lemma stdout_calls_load existed ds_args r kw se uc :
  stdout_calls (load_calls existed ds_args r kw se uc)
  = if se then [Attr r "fig_tree"] else [].
Proof. by destruct existed, se, uc. Qed.

Lemma mkdir_calls_show a o dstats info npmi_stats se column_id uc :
  mkdir_calls (show_calls a o dstats info npmi_stats se column_id uc) = [].
Proof. by destruct se. Qed.

Lemma isdir_calls_load existed ds_args r kw se uc :
  isdir_calls (load_calls existed ds_args r kw se uc)
  = [(CACHE_DIR, existed)].
Proof. by destruct existed, se, uc. Qed.

Lemma isdir_calls_show a o dstats info npmi_stats se column_id uc :
  isdir_calls (show_calls a o dstats info npmi_stats se column_id uc) = [].
Proof. by destruct se. Qed.

Lemma prepare_calls_show a o dstats info npmi_stats se column_id uc :
  prepare_calls (show_calls a o dstats info npmi_stats se column_id uc) = [].
Proof. by destruct se. Qed.

Lemma log_calls_show a o dstats info npmi_stats se column_id uc :
  log_calls (show_calls a o dstats info npmi_stats se column_id uc)
  = [(INFO, "showing header"); (INFO, "showing general stats");
     (INFO, "showing npmi widget"); (INFO, "showing zipf")].
Proof. by destruct se. Qed.

Lemma log_levels_load existed ds_args r kw se uc :
  Forall (λ p, p.1 = WARNING)
    (log_calls (load_calls existed ds_args r kw se uc)).
Proof. destruct existed, se, uc; cbn; repeat constructor. Qed.

(** X1.  Given a statistics object where the dictionary of dataset
    arguments is expected, [load_or_prepare] raises [TypeError] at the
    unpacking: nothing is constructed, no preparation step runs and the heap
    is as before; but the cache directory has been seen to by then, so it
    exists afterwards, created by this call if it was missing. *)
Theorem load_or_prepare_rejects_non_dict w ds_args o se uc :
  heap w !! ds_args = Some (ODStats o) →
  let out := load_or_prepare ds_args se uc w in
  out.1 = Raise TypeError
  ∧ heap out.2 = heap w
  ∧ constructed (calls_since w out.2) = []
  ∧ prepare_calls (calls_since w out.2) = []
  ∧ CACHE_DIR ∈ dirs out.2
  ∧ mkdir_calls (calls_since w out.2)
    = (if bool_decide (CACHE_DIR ∈ dirs w) then [] else [CACHE_DIR]).
Proof.
  intros Hd. cbn zeta.
  rewrite load_or_prepare_no_dict by (intros kw; congruence).
  cbn [fst snd heap dirs].
  erewrite calls_since_app by (cbn [trace]; done).
  split_and!; try done.
  - by destruct (bool_decide _), (default false uc).
  - by destruct (bool_decide _), (default false uc).
  - apply cache_dir_created.
  - by destruct (bool_decide _), (default false uc).
Qed.



(** X4.  Given a dictionary where the statistics object is expected,
    [show_column] raises [AttributeError] while the title is built: it has
    made no call by then, and the world is exactly as before. *)
Theorem show_column_rejects_dict w dstats d info se column_id uc :
  heap w !! dstats = Some (ODict d) →
  show_column dstats info se column_id uc w = (Raise AttributeError, w).
Proof.
  intros Hd. unfold show_column, bind at 1, get_dstats. by rewrite Hd.
Qed.


(** X6.  With the logger at level WARNING, where line 26 puts it, none of
    the messages that [show_column] logs reaches a handler, whatever the
    handlers are: they are logged at INFO. *)
Theorem show_column_messages_dropped w dstats o info se column_id uc :
  heap w !! dstats = Some (ODStats o) →
  l_level (logs w) = WARNING →
  ∃ w',
    show_column dstats info se column_id uc w = (Ok tt, w')
    ∧ log_calls (calls_since w w') ≠ []
    ∧ Forall (λ p, handled_by (logs w') p.1 = [])
        (log_calls (calls_since w w')).
Proof.
  intros Hd Hl. eexists. split; [by apply show_column_run|].
  rewrite calls_since_shown, log_calls_show.
  unfold shown. cbn [logs]. split; [done|].
  unfold handled_by. rewrite Hl. cbn. repeat constructor.
Qed.

(** X7.  With the logger as the module-level setup leaves a fresh one
    (level WARNING, the file and the stream handler), every message that
    [load_or_prepare] logs reaches both handlers. *)
Theorem load_or_prepare_warnings_handled w ds_args kw se uc :
  heap w !! ds_args = Some (ODict kw) →
  logs w = Logger WARNING false [file; stream] →
  ∃ dstats w',
    load_or_prepare ds_args se uc w = (Ok dstats, w')
    ∧ Forall (λ p, handled_by (logs w') p.1 = [file; stream])
        (log_calls (calls_since w w')).
Proof.
  intros Hd Hl. eexists _, _. split; [by apply load_or_prepare_run|].
  rewrite calls_since_loaded. unfold loaded. cbn [logs]. rewrite Hl.
  eapply Forall_impl; [apply log_levels_load|].
  intros [lvl msg] Hlvl. cbn in Hlvl. by subst lvl.
Qed.

End further.

Section further_main.
Context {utils : dataset_utils} {stats : dataset_statistics}.

Lemma cache_dir_kept (d : gset string) :
  {[CACHE_DIR]} ∪ ({[CACHE_DIR]} ∪ d) = {[CACHE_DIR]} ∪ d.
Proof.
  apply subseteq_union_1_L, singleton_subseteq_l, cache_dir_created.
Qed.

Lemma dirs_left_shown w : dirs (left_shown w) = {[CACHE_DIR]} ∪ dirs w.
Proof. by destruct w. Qed.

Ltac kept :=
  repeat (apply lookup_insert_is_Some'; right); assumption.

Ltac frame :=
  repeat (rewrite lookup_insert_ne; [|apply fresh_ne; kept]).




Lemma loaded_lookup_other w ds_args kw se uc l x :
  heap w !! l = Some x → heap (loaded w ds_args kw se uc) !! l = Some x.
Proof.
  intros Hl. unfold loaded. cbn [heap].
  rewrite lookup_insert_ne; [done|]. apply fresh_ne. by eexists.
Qed.

Lemma loaded_lookup_new w ds_args kw se uc :
  heap (loaded w ds_args kw se uc) !! fresh (dom (heap w))
  = Some (ODStats (prepared_dstats kw se uc)).
Proof. unfold loaded. cbn [heap]. apply lookup_insert_eq. Qed.

Lemma shown_in_lookup_other c w w' kw dstats column_id l x :
  heap w' !! l = Some x →
  heap (shown_in c w w' kw dstats column_id) !! l = Some x.
Proof.
  intros Hl. destruct w, w'. unfold shown_in, shown. world_cbn.
  cbn [heap] in Hl.
  rewrite lookup_insert_ne; [done|]. apply fresh_ne. by eexists.
Qed.

Lemma shown_in_lookup_new c w w' kw dstats column_id :
  heap (shown_in c w w' kw dstats column_id) !! fresh (dom (heap w'))
  = Some (ONpmi dstats true).
Proof.
  destruct w, w'. unfold shown_in, shown. world_cbn.
  apply lookup_insert_eq.
Qed.

Lemma compare_selected_left w :
  heap (compare_selected w) !! first_args w
  = Some (ODict (selection w " A")).
Proof. destruct w. unfold_worlds. solve_lookup. Qed.

Lemma compare_selected_right w :
  heap (compare_selected w) !! second_args w
  = Some (ODict (selection w " B")).
Proof. destruct w. unfold_worlds. solve_lookup. Qed.


End further_main.

(** ** The literal reading refuted, and the theorems at the concrete run *)


#[local] Existing Instance demo_utils.
#[local] Existing Instance demo_stats.




(** C9 on [demo_world]. *)
Lemma load_or_prepare_preserves_ds_args_witness :
  heap demo_world !! 0%nat = Some (ODict imdb)
  ∧ ∃ dstats w',
      load_or_prepare 0 true (Some true) demo_world = (Ok dstats, w')
      ∧ heap w' !! 0%nat = Some (ODict imdb)
      ∧ heap demo_world !! dstats = None
      ∧ (∀ l, l ≠ dstats → heap w' !! l = heap demo_world !! l)
      ∧ unpacked (calls_since demo_world w') = [0%nat].
Proof.
  split; [reflexivity|].
  apply (load_or_prepare_preserves_ds_args demo_world 0 imdb true
           (Some true)).
  reflexivity.
Defined.

(** C10 on [demo_loaded], inside column 0 and with embeddings. *)
Lemma show_column_widget_order_witness :
  heap demo_loaded !! 1%nat = Some (ODStats (DStats "cache_dir" imdb []))
  ∧ ∃ npmi_stats w',
      show_column 1 7 true " A" None demo_loaded = (Ok tt, w')
      ∧ ui_calls (calls_since demo_loaded w')
        = (λ u, (Column 0, u)) <$>
            ([markdown "### Showing A: imdb - plain_text - text";
              expander_header 1 7 " A";
              expander_general_stats 1 10 " A";
              expander_label_distribution
                (Attr 1 "label_df") (Attr 1 "fig_labels") " A";
              expander_text_lengths
                (Attr 1 "tokenized_df") (Attr 1 "fig_tok_length")
                (Attr 1 "avg_length") (Attr 1 "std_length")
                "text" "length" " A";
              expander_text_duplicates (Attr 1 "text_dup_counts_df") " A";
              npmi_widget " A" (AvailableTerms npmi_stats) npmi_stats 10 true;
              expander_zipf (Attr 1 "z") (Attr 1 "zipf_fig") " A"]
             ++ [expander_text_embeddings
                   (Attr 1 "text_dset") (Attr 1 "fig_tree")
                   (Attr 1 "node_list") (Attr 1 "embeddings")
                   "text" " A"]).
Proof.
  split; [reflexivity|].
  exact (show_column_widget_order demo_loaded 1
           (DStats "cache_dir" imdb []) 7 true " A" None eq_refl).
Defined.


(** ** The further properties at the concrete run *)

(** X1 on [demo_loaded], given the statistics object at 1. *)
Lemma load_or_prepare_rejects_non_dict_witness :
  heap demo_loaded !! 1%nat = Some (ODStats (DStats "cache_dir" imdb []))
  ∧ let out := load_or_prepare 1 true (Some true) demo_loaded in
    out.1 = Raise TypeError
    ∧ heap out.2 = heap demo_loaded
    ∧ constructed (calls_since demo_loaded out.2) = []
    ∧ prepare_calls (calls_since demo_loaded out.2) = []
    ∧ CACHE_DIR ∈ dirs out.2
    ∧ mkdir_calls (calls_since demo_loaded out.2)
      = (if bool_decide (CACHE_DIR ∈ dirs demo_loaded) then []
         else [CACHE_DIR]).
Proof.
  split; [reflexivity|].
  apply (load_or_prepare_rejects_non_dict demo_loaded 1
           (DStats "cache_dir" imdb []) true (Some true)).
  reflexivity.
Defined.



(** X4 on [demo_loaded], given the dictionary at 0. *)
Lemma show_column_rejects_dict_witness :
  heap demo_loaded !! 0%nat = Some (ODict imdb)
  ∧ show_column 0 7 true " A" None demo_loaded
    = (Raise AttributeError, demo_loaded).
Proof.
  split; [reflexivity|].
  apply (show_column_rejects_dict demo_loaded 0 imdb 7 true " A" None).
  reflexivity.
Defined.


(** X6 on [demo_loaded], whose logger is at WARNING. *)
Lemma show_column_messages_dropped_witness :
  heap demo_loaded !! 1%nat = Some (ODStats (DStats "cache_dir" imdb []))
  ∧ l_level (logs demo_loaded) = WARNING
  ∧ ∃ w',
      show_column 1 7 true " A" None demo_loaded = (Ok tt, w')
      ∧ log_calls (calls_since demo_loaded w') ≠ []
      ∧ Forall (λ p, handled_by (logs w') p.1 = [])
          (log_calls (calls_since demo_loaded w')).
Proof.
  split; [reflexivity|]. split; [reflexivity|].
  apply (show_column_messages_dropped demo_loaded 1
           (DStats "cache_dir" imdb []) 7 true " A" None);
    reflexivity.
Defined.

(** X7 on [demo_loaded], whose logger has the two handlers. *)
Lemma load_or_prepare_warnings_handled_witness :
  heap demo_loaded !! 0%nat = Some (ODict imdb)
  ∧ logs demo_loaded = Logger WARNING false [file; stream]
  ∧ ∃ dstats w',
      load_or_prepare 0 true (Some true) demo_loaded = (Ok dstats, w')
      ∧ Forall (λ p, handled_by (logs w') p.1 = [file; stream])
          (log_calls (calls_since demo_loaded w')).
Proof.
  split; [reflexivity|]. split; [reflexivity|].
  apply (load_or_prepare_warnings_handled demo_loaded 0 imdb true
           (Some true));
    reflexivity.
Defined.


